(** * Permit2 signature-transfer typed data: [src/signatureTransfer.ts]

    A shallow embedding of the [SignatureTransfer] class: the bound checks
    on deadline, nonce and amounts, the construction of the EIP-712
    [types] mapping with and without a witness, the [Object.assign] that
    merges the witness payload into the permit, and the call of the
    typed-data hashing primitive.

    JavaScript objects are held by reference.  The permit a caller passes
    is a location in a heap of objects, so that writes to it and the
    identity of the returned [values] object are visible in the model. *)

From Stdlib Require Import ZArith Ascii String List Bool Lia.
From stdpp Require Import base gmap strings list fin_maps.

Open Scope string_scope.

(** ** Data model *)

(** viem's [Address] is a template string type. *)
Definition Address := string.

(** [bigint] is an unbounded integer. *)
Record TokenPermissions := mkTokenPermissions {
  token : Address;
  amount : Z
}.

(** The field [permitted] of the union
    [PermitTransferFrom | PermitBatchTransferFrom]: one struct, or an
    array of them. *)
Inductive Permitted :=
| OneToken (permissions : TokenPermissions)
| TokenArray (elements : list TokenPermissions).

Definition Array_isArray (v : Permitted) : bool :=
  match v with
  | TokenArray _ => true
  | OneToken _ => false
  end.

(** The witness payload has type [any]. *)
#[local] Unset Elimination Schemes.
Inductive any :=
| Undefined
| BigInt (z : Z)
| Str (s : string)
| Struct (members : list (string * any))
| Arr (items : list any).
#[local] Set Elimination Schemes.

(** A permit object: the four declared properties, and its other own
    properties by name ([Object.assign] adds one called [witness]). *)
Record PermitObject := mkPermit {
  permitted : Permitted;
  spender : Address;
  nonce : Z;
  deadline : Z;
  others : gmap string any
}.

Record TypedDataField := mkField {
  name : string;
  type : string
}.

(** viem's [TypedData]: struct name to field list. *)
Abbreviation TypedData := (gmap string (list TypedDataField)).

Record Witness := mkWitness {
  witness : any;
  witnessTypeName : string;
  witnessType : TypedData
}.

Definition loc := positive.

(** [PermitTransferFromData] and [PermitBatchTransferFromData]; [values]
    is a reference to a permit object. *)
Record PermitData (Domain : Type) := mkPermitData {
  domain : Domain;
  types : TypedData;
  values : loc
}.
Arguments mkPermitData {Domain} _ _ _.
Arguments domain {Domain} _.
Arguments types {Domain} _.
Arguments values {Domain} _.

(** The argument of [hashTypedData]. *)
Record TypedDataDefinition (Domain : Type) := mkDefinition {
  td_domain : Domain;
  td_types : TypedData;
  primaryType : string;
  message : PermitObject
}.
Arguments mkDefinition {Domain} _ _ _ _.
Arguments td_domain {Domain} _.
Arguments td_types {Domain} _.
Arguments primaryType {Domain} _.
Arguments message {Domain} _.

(** ** Constants *)

(** Modelled from the spec: [./constants] is not part of the sources at
    hand; the three maxima are each the largest unsigned 256-bit value. *)
Definition MaxUint256 : Z := 2 ^ 256 - 1.
Definition MaxSigDeadline : Z := MaxUint256.
Definition MaxUnorderedNonce : Z := MaxUint256.
Definition MaxSignatureTransferAmount : Z := MaxUint256.

Definition TOKEN_PERMISSIONS : list TypedDataField :=
  [ mkField "token" "address";
    mkField "amount" "uint256" ].

Definition PERMIT_TRANSFER_FROM_TYPES : TypedData :=
  <["PermitTransferFrom" :=
      ([ mkField "permitted" "TokenPermissions";
         mkField "spender" "address";
         mkField "nonce" "uint256";
         mkField "deadline" "uint256" ])]>
  (<["TokenPermissions" := TOKEN_PERMISSIONS]> ∅).

Definition PERMIT_BATCH_TRANSFER_FROM_TYPES : TypedData :=
  <["PermitBatchTransferFrom" :=
      ([ mkField "permitted" "TokenPermissions[]";
         mkField "spender" "address";
         mkField "nonce" "uint256";
         mkField "deadline" "uint256" ])]>
  (<["TokenPermissions" := TOKEN_PERMISSIONS]> ∅).

Definition isPermitTransferFrom (permit : PermitObject) : bool :=
  negb (Array_isArray (permitted permit)).

(** ** Collaborators

    [permit2Domain] (from [./domain]) and viem's [hashTypedData] are
    outside the module; they are total functions of their arguments. *)
Class Collaborators := {
  TypedDataDomain : Type;
  permit2Domain : Address -> Z -> TypedDataDomain;
  hashTypedData : TypedDataDefinition TypedDataDomain -> string
}.

(** ** Effects: a heap of permit objects, faults, and the calls made to
    [hashTypedData] *)

Inductive Outcome (A : Type) :=
| Normal (a : A)
| Throw (reason : string)
| Untyped.
Arguments Normal {A} _.
Arguments Throw {A} _.
Arguments Untyped {A}.

Section SignatureTransfer.

Context `{C : Collaborators}.

Record State := mkState {
  heap : gmap loc PermitObject;
  hashed : list (TypedDataDefinition TypedDataDomain)
}.

Definition M (A : Type) : Type := State -> Outcome A * State.

Definition ret {A} (a : A) : M A := fun st => (Normal a, st).

Definition bind {A B} (m : M A) (k : A -> M B) : M B :=
  fun st =>
    match m st with
    | (Normal a, st') => k a st'
    | (Throw e, st') => (Throw e, st')
    | (Untyped, st') => (Untyped, st')
    end.

Definition throw {A} (reason : string) : M A := fun st => (Throw reason, st).

(** An argument outside its declared TypeScript type. *)
Definition untyped {A} : M A := fun st => (Untyped, st).

Notation "'let!' x ':=' m 'in' k" := (bind m (fun x => k))
  (at level 10, x name, m at level 100, k at level 200).
Notation "m '>>' k" := (bind m (fun _ => k))
  (at level 100, k at level 200, right associativity).

(** Reading the object a reference points to. *)
Definition load (l : loc) : M PermitObject :=
  fun st =>
    match heap st !! l with
    | Some o => (Normal o, st)
    | None => (Untyped, st)
    end.

(** tiny-invariant: nothing when the condition holds, otherwise a fault
    that carries the message given. *)
Definition invariant (condition : bool) (reason : string) : M unit :=
  if condition then ret tt else throw reason.

(** [Array.prototype.forEach] with a callback that may throw. *)
Fixpoint forEach {A} (callbackfn : A -> M unit) (array : list A) : M unit :=
  match array with
  | [] => ret tt
  | element :: rest => callbackfn element >> forEach callbackfn rest
  end.

(** [Object.assign(target, { witness: payload })]: writes the property
    on the target object itself and returns the target. *)
Definition set_witness (payload : any) (o : PermitObject) : PermitObject :=
  mkPermit (permitted o) (spender o) (nonce o) (deadline o)
           (<["witness" := payload]> (others o)).

Definition Object_assign (target : loc) (payload : any) : M loc :=
  fun st =>
    match heap st !! target with
    | Some o =>
        (Normal target,
         mkState (<[target := set_witness payload o]> (heap st)) (hashed st))
    | None => (Untyped, st)
    end.

(** The external call; the model records its argument. *)
Definition call_hashTypedData (d : TypedDataDefinition TypedDataDomain)
  : M string :=
  fun st => (Normal (hashTypedData d), mkState (heap st) (hashed st ++ [d])).

Definition validateTokenPermissions (permissions : TokenPermissions) : M unit :=
  invariant (MaxSignatureTransferAmount >=? amount permissions)%Z
            "AMOUNT_OUT_OF_RANGE".

(** Spread [...source] inside an object literal: the own properties of
    [source] are copied over the properties written so far. *)
Definition spread (source literal : TypedData) : TypedData :=
  source ∪ literal.

(** [{ TokenPermissions: ..., ...witness.witnessType,
       PermitWitnessTransferFrom: [...] }]: later entries of an object
    literal replace earlier ones of the same name. *)
Definition witness_transfer_types (w : Witness) : TypedData :=
  <["PermitWitnessTransferFrom" :=
      ([ mkField "permitted" "TokenPermissions";
         mkField "spender" "address";
         mkField "nonce" "uint256";
         mkField "deadline" "uint256";
         mkField "witness" (witnessTypeName w) ])]>
  (spread (witnessType w) (<["TokenPermissions" := TOKEN_PERMISSIONS]> ∅)).

(** [{ ...witness.witnessType, TokenPermissions: ...,
       PermitBatchWitnessTransferFrom: [...] }]. *)
Definition witness_batch_transfer_types (w : Witness) : TypedData :=
  <["PermitBatchWitnessTransferFrom" :=
      ([ mkField "permitted" "TokenPermissions[]";
         mkField "spender" "address";
         mkField "nonce" "uint256";
         mkField "deadline" "uint256";
         mkField "witness" (witnessTypeName w) ])]>
  (<["TokenPermissions" := TOKEN_PERMISSIONS]> (spread (witnessType w) ∅)).

Definition getPermitTransferData (permit : loc) (permit2Address : Address)
    (chainId : Z) (witness_opt : option Witness)
  : M (PermitData TypedDataDomain) :=
  let! p := load permit in
  invariant (MaxSigDeadline >=? deadline p)%Z "SIG_DEADLINE_OUT_OF_RANGE" >>
  invariant (MaxUnorderedNonce >=? nonce p)%Z "NONCE_OUT_OF_RANGE" >>
  let domain := permit2Domain permit2Address chainId in
  let! _ :=
    match permitted p with
    | OneToken permissions => validateTokenPermissions permissions
    | TokenArray _ => untyped
    end in
  let types :=
    match witness_opt with
    | Some w => witness_transfer_types w
    | None => PERMIT_TRANSFER_FROM_TYPES
    end in
  let! values :=
    match witness_opt with
    | Some w => Object_assign permit (witness w)
    | None => ret permit
    end in
  ret (mkPermitData domain types values).

Definition getPermitBatchTransferData (permit : loc) (permit2Address : Address)
    (chainId : Z) (witness_opt : option Witness)
  : M (PermitData TypedDataDomain) :=
  let! p := load permit in
  invariant (MaxSigDeadline >=? deadline p)%Z "SIG_DEADLINE_OUT_OF_RANGE" >>
  invariant (MaxUnorderedNonce >=? nonce p)%Z "NONCE_OUT_OF_RANGE" >>
  let domain := permit2Domain permit2Address chainId in
  let! _ :=
    match permitted p with
    | TokenArray elements => forEach validateTokenPermissions elements
    | OneToken _ => untyped
    end in
  let types :=
    match witness_opt with
    | Some w => witness_batch_transfer_types w
    | None => PERMIT_BATCH_TRANSFER_FROM_TYPES
    end in
  let! values :=
    match witness_opt with
    | Some w => Object_assign permit (witness w)
    | None => ret permit
    end in
  ret (mkPermitData domain types values).

Definition getPermitData (permit : loc) (permit2Address : Address)
    (chainId : Z) (witness_opt : option Witness)
  : M (PermitData TypedDataDomain) :=
  let! p := load permit in
  if isPermitTransferFrom p
  then getPermitTransferData permit permit2Address chainId witness_opt
  else getPermitBatchTransferData permit permit2Address chainId witness_opt.

(** [message: { ...values }] is a fresh object with the own properties of
    [values]; it is passed by content. *)
Definition hash (permit : loc) (permit2Address : Address)
    (chainId : Z) (witness_opt : option Witness) : M string :=
  let! p := load permit in
  if isPermitTransferFrom p then
    let! d := getPermitTransferData permit permit2Address chainId witness_opt in
    let! copy := load (values d) in
    call_hashTypedData
      (mkDefinition (domain d) (types d)
         (match witness_opt with
          | Some _ => "PermitWitnessTransferFrom"
          | None => "PermitTransferFrom"
          end)
         copy)
  else
    let! d := getPermitBatchTransferData permit permit2Address chainId
                witness_opt in
    let! copy := load (values d) in
    call_hashTypedData
      (mkDefinition (domain d) (types d)
         (match witness_opt with
          | Some _ => "PermitBatchWitnessTransferFrom"
          | None => "PermitBatchTransferFrom"
          end)
         copy).

End SignatureTransfer.

(** ** Vocabulary of the statements *)

(** The token permissions of a permit, one or many. *)
Definition tokens (v : Permitted) : list TokenPermissions :=
  match v with
  | OneToken permissions => [permissions]
  | TokenArray elements => elements
  end.

(** The invariants of the data model: every checked field is at most its
    maximum. *)
Definition in_range (p : PermitObject) : Prop :=
  (deadline p <= MaxSigDeadline)%Z /\
  (nonce p <= MaxUnorderedNonce)%Z /\
  forall t, In t (tokens (permitted p)) ->
            (amount t <= MaxSignatureTransferAmount)%Z.

Definition amount_ok (permissions : TokenPermissions) : bool :=
  (MaxSignatureTransferAmount >=? amount permissions)%Z.

(** The fault a permit object meets, if any, in the order of the checks. *)
Definition fault_of (p : PermitObject) : option string :=
  if negb (MaxSigDeadline >=? deadline p)%Z
  then Some "SIG_DEADLINE_OUT_OF_RANGE"
  else if negb (MaxUnorderedNonce >=? nonce p)%Z
  then Some "NONCE_OUT_OF_RANGE"
  else if negb (forallb amount_ok (tokens (permitted p)))
  then Some "AMOUNT_OUT_OF_RANGE"
  else None.

Definition transfer_types (witness_opt : option Witness) : TypedData :=
  match witness_opt with
  | Some w => witness_transfer_types w
  | None => PERMIT_TRANSFER_FROM_TYPES
  end.

Definition batch_transfer_types (witness_opt : option Witness) : TypedData :=
  match witness_opt with
  | Some w => witness_batch_transfer_types w
  | None => PERMIT_BATCH_TRANSFER_FROM_TYPES
  end.

Definition types_of (p : PermitObject) (witness_opt : option Witness)
  : TypedData :=
  if isPermitTransferFrom p then transfer_types witness_opt
  else batch_transfer_types witness_opt.

(** The permit object after the merge of the witness payload. *)
Definition merged_object (p : PermitObject) (witness_opt : option Witness)
  : PermitObject :=
  match witness_opt with
  | Some w => set_witness (witness w) p
  | None => p
  end.

(** The primary-type name as the specification gives it: a table over
    (single?, witness present?). *)
Definition primaryTypeName (single witnessed : bool) : string :=
  match single, witnessed with
  | true, false => "PermitTransferFrom"
  | true, true => "PermitWitnessTransferFrom"
  | false, false => "PermitBatchTransferFrom"
  | false, true => "PermitBatchWitnessTransferFrom"
  end.

Definition present {A} (o : option A) : bool :=
  match o with Some _ => true | None => false end.

(** A hexadecimal string in viem's sense: [0x] and then hex digits. *)
Definition is_hex_digit (a : Ascii.ascii) : bool :=
  let n := Ascii.nat_of_ascii a in
  ((48 <=? n) && (n <=? 57) || (97 <=? n) && (n <=? 102)
   || (65 <=? n) && (n <=? 70))%nat.

Fixpoint all_hex_digits (s : string) : bool :=
  match s with
  | EmptyString => true
  | String a rest => is_hex_digit a && all_hex_digits rest
  end.

Definition is_hex_string (s : string) : bool :=
  match s with
  | String "0"%char (String "x"%char digits) => all_hex_digits digits
  | _ => false
  end.

Section StateVocabulary.

Context `{C : Collaborators}.

(** The state after the merge of the witness payload. *)
Definition merged (permit : loc) (p : PermitObject)
    (witness_opt : option Witness) (st : State) : State :=
  match witness_opt with
  | Some w => mkState (<[permit := set_witness (witness w) p]> (heap st))
                      (hashed st)
  | None => st
  end.

(** The argument [hash] builds for [hashTypedData]. *)
Definition request_of (p : PermitObject) (a : Address) (c : Z)
    (witness_opt : option Witness) : TypedDataDefinition TypedDataDomain :=
  mkDefinition (permit2Domain a c) (types_of p witness_opt)
    (primaryTypeName (isPermitTransferFrom p) (present witness_opt))
    (merged_object p witness_opt).

End StateVocabulary.

(** ** Sample collaborators and inputs *)

Definition zero_hash : string :=
  "0x0000000000000000000000000000000000000000000000000000000000000000".

(** Stand-ins for the two collaborators, used to run the functions on
    concrete inputs. *)
Definition sample : Collaborators :=
  {| TypedDataDomain := Address * Z;
     permit2Domain := fun a c => (a, c);
     hashTypedData := fun _ => zero_hash |}.

Definition sample_token : TokenPermissions :=
  mkTokenPermissions "0xAAA" 1000.

Definition sample_permit : PermitObject :=
  mkPermit (OneToken sample_token) "0xBBB" 0 1700000000 ∅.

Definition sample_batch_permit : PermitObject :=
  mkPermit (TokenArray [sample_token]) "0xBBB" 0 1700000000 ∅.

Definition sample_witness : Witness :=
  mkWitness (BigInt 7) "Order"
    (<["Order" := ([ mkField "id" "uint256" ])]> ∅).

(** A witness whose own type mapping declares a struct called
    [PermitTransferFrom] and one called [PermitBatchTransferFrom]. *)
Definition shadowing_witness : Witness :=
  mkWitness (BigInt 7) "Order"
    (<["PermitTransferFrom" := ([ mkField "id" "uint256" ])]>
       (<["PermitBatchTransferFrom" := ([ mkField "id" "uint256" ])]> ∅)).

(** A heap with the single permit at 1 and the batch permit at 2. *)
Definition sample_state : @State sample :=
  mkState (<[2%positive := sample_batch_permit]>
            (<[1%positive := sample_permit]> ∅)) [].

(** Every checked field at its maximum. *)
Definition max_permit : PermitObject :=
  mkPermit (OneToken (mkTokenPermissions "0xAAA" MaxSignatureTransferAmount))
           "0xBBB" MaxUnorderedNonce MaxSigDeadline ∅.

(** Every checked field one above its maximum. *)
Definition overdue_permit : PermitObject :=
  mkPermit
    (OneToken (mkTokenPermissions "0xAAA" (MaxSignatureTransferAmount + 1)))
    "0xBBB" (MaxUnorderedNonce + 1) (MaxSigDeadline + 1) ∅.

(** A batch whose second and third amounts are above the maximum. *)
Definition greedy_batch_permit : PermitObject :=
  mkPermit
    (TokenArray
       [ sample_token;
         mkTokenPermissions "0xAAA" (MaxSignatureTransferAmount + 1);
         mkTokenPermissions "0xDDD" (MaxSignatureTransferAmount + 2) ])
    "0xBBB" 0 1700000000 ∅.


(** A batch permit with no token permissions. *)
Definition empty_batch_permit : PermitObject :=
  mkPermit (TokenArray []) "0xBBB" 0 1700000000 ∅.

(** A witness that declares [TokenPermissions] itself. *)
Definition overriding_witness : Witness :=
  mkWitness (BigInt 7) "Order"
    (<["TokenPermissions" := ([ mkField "id" "uint256" ])]>
       (<["Order" := ([ mkField "id" "uint256" ])]> ∅)).

(** A heap that holds one permit object, at 1. *)
Definition state_of (p : PermitObject) : @State sample :=
  mkState (<[1%positive := p]> ∅) [].

(** ** What a call does, as a function of the permit's contents *)

Section Runs.

Context `{C : Collaborators}.

Lemma validateTokenPermissions_run permissions st :
  validateTokenPermissions permissions st =
  if amount_ok permissions then (Normal tt, st)
  else (Throw "AMOUNT_OUT_OF_RANGE", st).
Proof.
  unfold validateTokenPermissions, amount_ok, invariant.
  destruct (_ >=? _)%Z; reflexivity.
Qed.

Lemma forEach_validate_run elements st :
  forEach validateTokenPermissions elements st =
  if forallb amount_ok elements then (Normal tt, st)
  else (Throw "AMOUNT_OUT_OF_RANGE", st).
Proof.
  induction elements as [|x rest IH]; simpl; [reflexivity|].
  unfold bind. rewrite validateTokenPermissions_run.
  destruct (amount_ok x); simpl; [apply IH | reflexivity].
Qed.

Lemma merge_run {B} st permit p w (k : loc -> M B) :
  heap st !! permit = Some p ->
  bind (match w with
        | Some w' => Object_assign permit (witness w')
        | None => ret permit
        end) k st = k permit (merged permit p w st).
Proof.
  intros Hp. destruct w as [w'|]; unfold bind, Object_assign, ret; simpl.
  - rewrite Hp. reflexivity.
  - reflexivity.
Qed.

(** [getPermitTransferData] on any permit object, also one whose
    [permitted] is an array. *)
Lemma getPermitTransferData_run st permit p a c w :
  heap st !! permit = Some p ->
  getPermitTransferData permit a c w st =
  if negb (MaxSigDeadline >=? deadline p)%Z
  then (Throw "SIG_DEADLINE_OUT_OF_RANGE", st)
  else if negb (MaxUnorderedNonce >=? nonce p)%Z
  then (Throw "NONCE_OUT_OF_RANGE", st)
  else match permitted p with
       | OneToken permissions =>
           if negb (amount_ok permissions)
           then (Throw "AMOUNT_OUT_OF_RANGE", st)
           else (Normal (mkPermitData (permit2Domain a c)
                           (transfer_types w) permit),
                 merged permit p w st)
       | TokenArray _ => (Untyped, st)
       end.
Proof.
  intros Hp. unfold getPermitTransferData, bind at 1, load.
  rewrite Hp. unfold bind at 1, invariant at 1.
  destruct (MaxSigDeadline >=? deadline p)%Z; simpl; [|reflexivity].
  unfold bind at 1, invariant at 1.
  destruct (MaxUnorderedNonce >=? nonce p)%Z; simpl; [|reflexivity].
  destruct (permitted p) as [permissions|elements].
  - unfold bind at 1. rewrite validateTokenPermissions_run.
    destruct (amount_ok permissions); simpl; [|reflexivity].
    rewrite (merge_run _ _ p) by exact Hp. reflexivity.
  - reflexivity.
Qed.

Lemma getPermitBatchTransferData_run st permit p a c w :
  heap st !! permit = Some p ->
  getPermitBatchTransferData permit a c w st =
  if negb (MaxSigDeadline >=? deadline p)%Z
  then (Throw "SIG_DEADLINE_OUT_OF_RANGE", st)
  else if negb (MaxUnorderedNonce >=? nonce p)%Z
  then (Throw "NONCE_OUT_OF_RANGE", st)
  else match permitted p with
       | TokenArray elements =>
           if negb (forallb amount_ok elements)
           then (Throw "AMOUNT_OUT_OF_RANGE", st)
           else (Normal (mkPermitData (permit2Domain a c)
                           (batch_transfer_types w) permit),
                 merged permit p w st)
       | OneToken _ => (Untyped, st)
       end.
Proof.
  intros Hp. unfold getPermitBatchTransferData, bind at 1, load.
  rewrite Hp. unfold bind at 1, invariant at 1.
  destruct (MaxSigDeadline >=? deadline p)%Z; simpl; [|reflexivity].
  unfold bind at 1, invariant at 1.
  destruct (MaxUnorderedNonce >=? nonce p)%Z; simpl; [|reflexivity].
  destruct (permitted p) as [permissions|elements].
  - reflexivity.
  - unfold bind at 1. rewrite forEach_validate_run.
    destruct (forallb amount_ok elements); simpl; [|reflexivity].
    rewrite (merge_run _ _ p) by exact Hp. reflexivity.
Qed.

Lemma getPermitData_dispatch st permit p a c w :
  heap st !! permit = Some p ->
  getPermitData permit a c w st =
  if Array_isArray (permitted p)
  then getPermitBatchTransferData permit a c w st
  else getPermitTransferData permit a c w st.
Proof.
  intros Hp. unfold getPermitData, bind, load. rewrite Hp.
  unfold isPermitTransferFrom. destruct (Array_isArray _); reflexivity.
Qed.

Lemma getPermitData_run st permit p a c w :
  heap st !! permit = Some p ->
  getPermitData permit a c w st =
  match fault_of p with
  | Some e => (Throw e, st)
  | None => (Normal (mkPermitData (permit2Domain a c) (types_of p w) permit),
             merged permit p w st)
  end.
Proof.
  intros Hp. rewrite (getPermitData_dispatch _ _ p) by exact Hp.
  unfold fault_of, types_of, isPermitTransferFrom.
  destruct (permitted p) as [t|l] eqn:Hperm; simpl.
  - rewrite (getPermitTransferData_run _ _ p) by exact Hp. rewrite Hperm.
    rewrite andb_true_r.
    repeat match goal with |- context [negb ?b] => destruct b; simpl end;
      reflexivity.
  - rewrite (getPermitBatchTransferData_run _ _ p) by exact Hp. rewrite Hperm.
    repeat match goal with |- context [negb ?b] => destruct b; simpl end;
      reflexivity.
Qed.

Lemma heap_merged st permit p w :
  heap st !! permit = Some p ->
  heap (merged permit p w st) !! permit = Some (merged_object p w).
Proof.
  intros Hp. destruct w as [w'|]; simpl; [apply lookup_insert_eq | exact Hp].
Qed.

Lemma hashed_merged st permit p w :
  hashed (merged permit p w st) = hashed st.
Proof. destruct w; reflexivity. Qed.

Lemma hash_run st permit p a c w :
  heap st !! permit = Some p ->
  hash permit a c w st =
  match fault_of p with
  | Some e => (Throw e, st)
  | None => (Normal (hashTypedData (request_of p a c w)),
             mkState (heap (merged permit p w st))
                     (hashed st ++ [request_of p a c w]))
  end.
Proof.
  intros Hp. unfold hash, bind at 1, load. rewrite Hp.
  unfold fault_of, request_of, types_of, isPermitTransferFrom.
  destruct (permitted p) as [t|l] eqn:Hperm; simpl; unfold bind at 1.
  - rewrite (getPermitTransferData_run _ _ p) by exact Hp. rewrite Hperm.
    rewrite andb_true_r.
    repeat match goal with |- context [negb ?b] => destruct b; simpl end;
      try reflexivity.
    unfold bind, load. rewrite (heap_merged _ _ p) by exact Hp.
    unfold call_hashTypedData. rewrite hashed_merged.
    destruct w; reflexivity.
  - rewrite (getPermitBatchTransferData_run _ _ p) by exact Hp. rewrite Hperm.
    repeat match goal with |- context [negb ?b] => destruct b; simpl end;
      try reflexivity.
    unfold bind, load. rewrite (heap_merged _ _ p) by exact Hp.
    unfold call_hashTypedData. rewrite hashed_merged.
    destruct w; reflexivity.
Qed.

End Runs.

(** ** The checks and the data-model invariants *)

Lemma amount_ok_le t :
  amount_ok t = true <-> (amount t <= MaxSignatureTransferAmount)%Z.
Proof. unfold amount_ok. apply Z.geb_le. Qed.

Lemma amount_ok_gt t :
  amount_ok t = false <-> (amount t > MaxSignatureTransferAmount)%Z.
Proof.
  unfold amount_ok. rewrite Z.geb_leb, Z.leb_gt. lia.
Qed.

Lemma amounts_ok_all l :
  forallb amount_ok l = true <->
  forall t, In t l -> (amount t <= MaxSignatureTransferAmount)%Z.
Proof.
  rewrite forallb_forall. split; intros H t Ht; apply amount_ok_le, H, Ht.
Qed.

Lemma fault_of_deadline p :
  (deadline p > MaxSigDeadline)%Z ->
  fault_of p = Some "SIG_DEADLINE_OUT_OF_RANGE".
Proof.
  intros H. unfold fault_of.
  replace (MaxSigDeadline >=? deadline p)%Z with false; [reflexivity|].
  symmetry. rewrite Z.geb_leb. apply Z.leb_gt. lia.
Qed.

Lemma fault_of_nonce p :
  (deadline p <= MaxSigDeadline)%Z ->
  (nonce p > MaxUnorderedNonce)%Z ->
  fault_of p = Some "NONCE_OUT_OF_RANGE".
Proof.
  intros Hd Hn. unfold fault_of.
  replace (MaxSigDeadline >=? deadline p)%Z with true
    by (symmetry; apply Z.geb_le; exact Hd).
  replace (MaxUnorderedNonce >=? nonce p)%Z with false; [reflexivity|].
  symmetry. rewrite Z.geb_leb. apply Z.leb_gt. lia.
Qed.

Lemma fault_of_amount p :
  (deadline p <= MaxSigDeadline)%Z ->
  (nonce p <= MaxUnorderedNonce)%Z ->
  (exists t, In t (tokens (permitted p)) /\
             (amount t > MaxSignatureTransferAmount)%Z) ->
  fault_of p = Some "AMOUNT_OUT_OF_RANGE".
Proof.
  intros Hd Hn [t [Hin Ht]]. unfold fault_of.
  replace (MaxSigDeadline >=? deadline p)%Z with true
    by (symmetry; apply Z.geb_le; exact Hd).
  replace (MaxUnorderedNonce >=? nonce p)%Z with true
    by (symmetry; apply Z.geb_le; exact Hn).
  simpl.
  destruct (forallb amount_ok (tokens (permitted p))) eqn:Hall;
    [|reflexivity].
  apply amounts_ok_all with (t := t) in Hall; [lia | exact Hin].
Qed.

Lemma fault_of_in_range p : fault_of p = None <-> in_range p.
Proof.
  unfold fault_of, in_range. split.
  - destruct (MaxSigDeadline >=? deadline p)%Z eqn:Hd; simpl; [|discriminate].
    destruct (MaxUnorderedNonce >=? nonce p)%Z eqn:Hn; simpl; [|discriminate].
    destruct (forallb amount_ok _) eqn:Ha; simpl; [|discriminate].
    intros _. apply Z.geb_le in Hd, Hn. rewrite amounts_ok_all in Ha.
    auto.
  - intros (Hd & Hn & Ha).
    apply Z.geb_le in Hd, Hn. apply amounts_ok_all in Ha.
    rewrite Hd, Hn, Ha. reflexivity.
Qed.

(** ** Validation *)

Section Validation.

Context `{C : Collaborators}.

(** C2: each of the three bounds is inclusive.  A permit whose deadline,
    nonce and amounts are at most their maxima (in particular equal to
    them) passes and the data is returned; a deadline above
    [MaxSigDeadline] fails with the deadline fault, a nonce above
    [MaxUnorderedNonce] with the nonce fault, an amount above
    [MaxSignatureTransferAmount] with the amount fault (each once the
    checks made before it have passed), and a failing call returns no
    data. *)
Theorem bounds_are_inclusive st permit p a c w :
  heap st !! permit = Some p ->
  ((deadline p = MaxSigDeadline /\ nonce p = MaxUnorderedNonce /\
    (forall t, In t (tokens (permitted p)) ->
               amount t = MaxSignatureTransferAmount)) ->
   exists d st', getPermitData permit a c w st = (Normal d, st')) /\
  (in_range p ->
   exists d st', getPermitData permit a c w st = (Normal d, st')) /\
  ((deadline p > MaxSigDeadline)%Z ->
   getPermitData permit a c w st = (Throw "SIG_DEADLINE_OUT_OF_RANGE", st)) /\
  ((deadline p <= MaxSigDeadline)%Z -> (nonce p > MaxUnorderedNonce)%Z ->
   getPermitData permit a c w st = (Throw "NONCE_OUT_OF_RANGE", st)) /\
  ((deadline p <= MaxSigDeadline)%Z -> (nonce p <= MaxUnorderedNonce)%Z ->
   (exists t, In t (tokens (permitted p)) /\
              (amount t > MaxSignatureTransferAmount)%Z) ->
   getPermitData permit a c w st = (Throw "AMOUNT_OUT_OF_RANGE", st)) /\
  (forall t s,
     ((amount t <= MaxSignatureTransferAmount)%Z ->
      validateTokenPermissions t s = (Normal tt, s)) /\
     ((amount t > MaxSignatureTransferAmount)%Z ->
      validateTokenPermissions t s = (Throw "AMOUNT_OUT_OF_RANGE", s))).
Proof.
  intros Hp.
  assert (Hin : in_range p ->
                exists d st', getPermitData permit a c w st = (Normal d, st')).
  { intros Hr. rewrite (getPermitData_run _ _ p) by exact Hp.
    apply fault_of_in_range in Hr. rewrite Hr. eauto. }
  split; [|split; [exact Hin|]].
  { intros (Hd & Hn & Ha). apply Hin. unfold in_range.
    rewrite Hd, Hn. repeat split; try lia.
    intros t Ht. rewrite (Ha t Ht). lia. }
  repeat split.
  - intros Hd. rewrite (getPermitData_run _ _ p) by exact Hp.
    rewrite fault_of_deadline by exact Hd. reflexivity.
  - intros Hd Hn. rewrite (getPermitData_run _ _ p) by exact Hp.
    rewrite fault_of_nonce by assumption. reflexivity.
  - intros Hd Hn Ha. rewrite (getPermitData_run _ _ p) by exact Hp.
    rewrite fault_of_amount by assumption. reflexivity.
  - intros Ht. rewrite validateTokenPermissions_run.
    apply amount_ok_le in Ht. rewrite Ht. reflexivity.
  - intros Ht. rewrite validateTokenPermissions_run.
    apply amount_ok_gt in Ht. rewrite Ht. reflexivity.
Qed.

(** C10: the faults have a fixed precedence.  The deadline is checked
    first, then the nonce, then the amounts: a deadline out of range gives
    the deadline fault whatever the nonce and the amounts are, and with
    the deadline in range a nonce out of range gives the nonce fault
    whatever the amounts are; this holds for the single and the batch
    builder. *)
Theorem faults_have_precedence st permit p a c w :
  heap st !! permit = Some p ->
  ((deadline p > MaxSigDeadline)%Z ->
   getPermitTransferData permit a c w st
     = (Throw "SIG_DEADLINE_OUT_OF_RANGE", st) /\
   getPermitBatchTransferData permit a c w st
     = (Throw "SIG_DEADLINE_OUT_OF_RANGE", st) /\
   getPermitData permit a c w st
     = (Throw "SIG_DEADLINE_OUT_OF_RANGE", st) /\
   hash permit a c w st = (Throw "SIG_DEADLINE_OUT_OF_RANGE", st)) /\
  ((deadline p <= MaxSigDeadline)%Z -> (nonce p > MaxUnorderedNonce)%Z ->
   getPermitTransferData permit a c w st = (Throw "NONCE_OUT_OF_RANGE", st) /\
   getPermitBatchTransferData permit a c w st
     = (Throw "NONCE_OUT_OF_RANGE", st) /\
   getPermitData permit a c w st = (Throw "NONCE_OUT_OF_RANGE", st) /\
   hash permit a c w st = (Throw "NONCE_OUT_OF_RANGE", st)).
Proof.
  intros Hp. split.
  - intros Hd.
    rewrite (getPermitTransferData_run _ _ p),
            (getPermitBatchTransferData_run _ _ p),
            (getPermitData_run _ _ p), (hash_run _ _ p) by exact Hp.
    rewrite fault_of_deadline by exact Hd.
    replace (MaxSigDeadline >=? deadline p)%Z with false; [auto|].
    symmetry. rewrite Z.geb_leb. apply Z.leb_gt. lia.
  - intros Hd Hn.
    rewrite (getPermitTransferData_run _ _ p),
            (getPermitBatchTransferData_run _ _ p),
            (getPermitData_run _ _ p), (hash_run _ _ p) by exact Hp.
    rewrite fault_of_nonce by assumption.
    replace (MaxSigDeadline >=? deadline p)%Z with true
      by (symmetry; apply Z.geb_le; exact Hd).
    replace (MaxUnorderedNonce >=? nonce p)%Z with false; [auto|].
    symmetry. rewrite Z.geb_leb. apply Z.leb_gt. lia.
Qed.

End Validation.

(** ** Batch validation *)

Section Batch.

Context `{C : Collaborators}.

(** [forEach] runs the callback on the elements in order and stops at
    the first one that throws: the elements after it are never passed to
    the callback, whatever the callback does to the state. *)
Lemma forEach_stops_at_first_throw {A} (f : A -> M unit) before x after
    st st1 e st2 :
  forEach f before st = (Normal tt, st1) ->
  f x st1 = (Throw e, st2) ->
  forEach f (before ++ x :: after)%list st = (Throw e, st2).
Proof.
  revert st. induction before as [|y rest IH]; intros st Hrun Hx; simpl in *.
  - inversion Hrun; subst. unfold bind. rewrite Hx. reflexivity.
  - unfold bind in *. destruct (f y st) as [[[]| |] st'] eqn:Hy;
      try discriminate.
    apply IH; assumption.
Qed.

Lemma forEach_all_pass {A} (f : A -> M unit) array st :
  (forall x s, In x array -> f x s = (Normal tt, s)) ->
  forEach f array st = (Normal tt, st).
Proof.
  induction array as [|y rest IH]; intros Hall; simpl; [reflexivity|].
  unfold bind. rewrite Hall by (left; reflexivity).
  apply IH. intros x s Hx. apply Hall. right. exact Hx.
Qed.

(** C8: in a batch permit the amount bound is checked element by element
    in list order ([forEach] passes the elements to its callback in order
    and stops at the first that throws, leaving the later ones untouched)
    and the call aborts at the first element that violates the bound,
    with the one amount fault: what follows that element plays no part,
    and the fault is a single one however many elements violate the
    bound.  When no element violates the bound, all pass and the data is
    returned. *)
Theorem batch_amounts_short_circuit st permit p a c w elements :
  heap st !! permit = Some p ->
  permitted p = TokenArray elements ->
  (deadline p <= MaxSigDeadline)%Z ->
  (nonce p <= MaxUnorderedNonce)%Z ->
  (forall (f : TokenPermissions -> M unit) before x after s s1 e s2,
     forEach f before s = (Normal tt, s1) ->
     f x s1 = (Throw e, s2) ->
     forEach f (before ++ x :: after)%list s = (Throw e, s2)) /\
  (forall before x after,
     elements = (before ++ x :: after)%list ->
     (forall t, In t before -> (amount t <= MaxSignatureTransferAmount)%Z) ->
     (amount x > MaxSignatureTransferAmount)%Z ->
     forEach validateTokenPermissions before st = (Normal tt, st) /\
     validateTokenPermissions x st = (Throw "AMOUNT_OUT_OF_RANGE", st) /\
     forEach validateTokenPermissions elements st
       = (Throw "AMOUNT_OUT_OF_RANGE", st) /\
     getPermitBatchTransferData permit a c w st
       = (Throw "AMOUNT_OUT_OF_RANGE", st)) /\
  ((forall t, In t elements -> (amount t <= MaxSignatureTransferAmount)%Z) ->
   forEach validateTokenPermissions elements st = (Normal tt, st) /\
   getPermitBatchTransferData permit a c w st
     = (Normal (mkPermitData (permit2Domain a c) (batch_transfer_types w)
                  permit),
        merged permit p w st)).
Proof.
  intros Hp Hperm Hd Hn.
  apply Z.geb_le in Hd, Hn.
  assert (Hrun := getPermitBatchTransferData_run st permit p a c w Hp).
  rewrite Hd, Hn, Hperm in Hrun. simpl in Hrun.
  split; [|split].
  - intros f before x after s s1 e s2.
    apply forEach_stops_at_first_throw.
  - intros before x after Hsplit Hbefore Hx.
    assert (Hb : forEach validateTokenPermissions before st = (Normal tt, st)).
    { apply forEach_all_pass. intros t s Ht.
      rewrite validateTokenPermissions_run.
      replace (amount_ok t) with true; [reflexivity|].
      symmetry. apply amount_ok_le, Hbefore, Ht. }
    assert (Hv : validateTokenPermissions x st
                 = (Throw "AMOUNT_OUT_OF_RANGE", st)).
    { rewrite validateTokenPermissions_run.
      replace (amount_ok x) with false; [reflexivity|].
      symmetry. apply amount_ok_gt, Hx. }
    assert (Hf : forEach validateTokenPermissions elements st
                 = (Throw "AMOUNT_OUT_OF_RANGE", st)).
    { rewrite Hsplit.
      exact (forEach_stops_at_first_throw _ _ _ _ _ _ _ _ Hb Hv). }
    repeat split; try assumption.
    rewrite Hrun. rewrite forEach_validate_run in Hf.
    destruct (forallb amount_ok elements); [discriminate | reflexivity].
  - intros Hall. apply amounts_ok_all in Hall.
    rewrite forEach_validate_run, Hrun, Hall. split; reflexivity.
Qed.

End Batch.

(** ** Dispatch and the type schema *)

Section Schema.

Context `{C : Collaborators}.

Lemma dom_PERMIT_TRANSFER_FROM_TYPES :
  dom PERMIT_TRANSFER_FROM_TYPES
  = ({[ "TokenPermissions"; "PermitTransferFrom" ]} : gset string).
Proof.
  unfold PERMIT_TRANSFER_FROM_TYPES.
  rewrite !dom_insert_L, dom_empty_L. set_solver.
Qed.

Lemma dom_PERMIT_BATCH_TRANSFER_FROM_TYPES :
  dom PERMIT_BATCH_TRANSFER_FROM_TYPES
  = ({[ "TokenPermissions"; "PermitBatchTransferFrom" ]} : gset string).
Proof.
  unfold PERMIT_BATCH_TRANSFER_FROM_TYPES.
  rewrite !dom_insert_L, dom_empty_L. set_solver.
Qed.

(** C3: a permit is treated as batch exactly when [permitted] is an
    array.  With an array, of any length and so also of length one,
    [getPermitData] is [getPermitBatchTransferData], the types are the
    batch declarations and [hash] names the batch primary type; with a
    single struct it is [getPermitTransferData], the single declarations
    and the single primary type. *)
Theorem dispatch_is_structural st permit p a c w :
  heap st !! permit = Some p ->
  match permitted p with
  | TokenArray elements =>
      isPermitTransferFrom p = false /\
      getPermitData permit a c w st
        = getPermitBatchTransferData permit a c w st /\
      (in_range p ->
       getPermitData permit a c w st
         = (Normal (mkPermitData (permit2Domain a c) (batch_transfer_types w)
                      permit),
            merged permit p w st) /\
       let req :=
         mkDefinition (permit2Domain a c) (batch_transfer_types w)
           (match w with
            | Some _ => "PermitBatchWitnessTransferFrom"
            | None => "PermitBatchTransferFrom"
            end)
           (merged_object p w) in
       hash permit a c w st
         = (Normal (hashTypedData req),
            mkState (heap (merged permit p w st)) (hashed st ++ [req])))
  | OneToken permissions =>
      isPermitTransferFrom p = true /\
      getPermitData permit a c w st
        = getPermitTransferData permit a c w st /\
      (in_range p ->
       getPermitData permit a c w st
         = (Normal (mkPermitData (permit2Domain a c) (transfer_types w)
                      permit),
            merged permit p w st) /\
       let req :=
         mkDefinition (permit2Domain a c) (transfer_types w)
           (match w with
            | Some _ => "PermitWitnessTransferFrom"
            | None => "PermitTransferFrom"
            end)
           (merged_object p w) in
       hash permit a c w st
         = (Normal (hashTypedData req),
            mkState (heap (merged permit p w st)) (hashed st ++ [req])))
  end.
Proof.
  intros Hp.
  assert (Hdisp := getPermitData_dispatch st permit p a c w Hp).
  assert (Hdata := getPermitData_run st permit p a c w Hp).
  assert (Hhash := hash_run st permit p a c w Hp).
  unfold request_of, types_of, isPermitTransferFrom in *.
  destruct (permitted p) as [t|l]; simpl in *.
  - split; [reflexivity|]. split; [exact Hdisp|].
    intros Hr. apply fault_of_in_range in Hr. rewrite Hr in Hdata, Hhash.
    split; [exact Hdata|]. rewrite Hhash. destruct w; reflexivity.
  - split; [reflexivity|]. split; [exact Hdisp|].
    intros Hr. apply fault_of_in_range in Hr. rewrite Hr in Hdata, Hhash.
    split; [exact Hdata|]. rewrite Hhash. destruct w; reflexivity.
Qed.

(** C6: the primary-type name [hash] passes to [hashTypedData] is given
    by the pair (single?, witness present?) alone, through a table with
    four entries; the four names are distinct. *)
Theorem primary_type_is_a_table st permit p a c w :
  heap st !! permit = Some p ->
  in_range p ->
  (exists req,
     hash permit a c w st
       = (Normal (hashTypedData req),
          mkState (heap (merged permit p w st)) (hashed st ++ [req])) /\
     primaryType req
       = primaryTypeName (isPermitTransferFrom p) (present w) /\
     In (primaryType req)
        [ "PermitTransferFrom"; "PermitWitnessTransferFrom";
          "PermitBatchTransferFrom"; "PermitBatchWitnessTransferFrom" ]) /\
  (forall single witnessed single' witnessed',
     primaryTypeName single witnessed = primaryTypeName single' witnessed' ->
     single = single' /\ witnessed = witnessed').
Proof.
  intros Hp Hr. split.
  - exists (request_of p a c w).
    rewrite (hash_run _ _ p) by exact Hp.
    apply fault_of_in_range in Hr. rewrite Hr.
    split; [reflexivity|]. split; [reflexivity|].
    unfold request_of; simpl.
    destruct (isPermitTransferFrom p), (present w); simpl; auto.
  - intros [] [] [] []; simpl; intros H; try discriminate H; auto.
Qed.

(** C7: without a witness the types are exactly [TokenPermissions] and
    [PermitTransferFrom] for a single permit, exactly [TokenPermissions]
    and [PermitBatchTransferFrom] (its [permitted] typed
    [TokenPermissions[]]) for a batch permit, and [values] is the permit
    the caller passed, which is left as it was. *)
Theorem no_witness_base_schema st permit p a c :
  heap st !! permit = Some p ->
  in_range p ->
  exists d,
    getPermitData permit a c None st = (Normal d, st) /\
    values d = permit /\
    heap st !! values d = Some p /\
    types d !! "TokenPermissions" = Some TOKEN_PERMISSIONS /\
    match permitted p with
    | OneToken _ =>
        getPermitTransferData permit a c None st = (Normal d, st) /\
        types d = PERMIT_TRANSFER_FROM_TYPES /\
        dom (types d)
          = ({[ "TokenPermissions"; "PermitTransferFrom" ]} : gset string) /\
        types d !! "PermitTransferFrom"
          = Some [ mkField "permitted" "TokenPermissions";
                   mkField "spender" "address";
                   mkField "nonce" "uint256";
                   mkField "deadline" "uint256" ]
    | TokenArray _ =>
        getPermitBatchTransferData permit a c None st = (Normal d, st) /\
        types d = PERMIT_BATCH_TRANSFER_FROM_TYPES /\
        dom (types d)
          = ({[ "TokenPermissions"; "PermitBatchTransferFrom" ]}
             : gset string) /\
        types d !! "PermitBatchTransferFrom"
          = Some [ mkField "permitted" "TokenPermissions[]";
                   mkField "spender" "address";
                   mkField "nonce" "uint256";
                   mkField "deadline" "uint256" ]
    end.
Proof.
  intros Hp Hr.
  assert (Hdisp := getPermitData_dispatch st permit p a c None Hp).
  assert (Hdata := getPermitData_run st permit p a c None Hp).
  apply fault_of_in_range in Hr. rewrite Hr in Hdata.
  unfold types_of, isPermitTransferFrom in Hdata.
  eexists. split; [exact Hdata|]. simpl.
  split; [reflexivity|]. split; [exact Hp|].
  destruct (permitted p) as [t|l]; simpl in *.
  - split; [reflexivity|]. split; [rewrite <- Hdisp; exact Hdata|].
    split; [reflexivity|]. split; [apply dom_PERMIT_TRANSFER_FROM_TYPES|].
    reflexivity.
  - split; [reflexivity|]. split; [rewrite <- Hdisp; exact Hdata|].
    split; [reflexivity|].
    split; [apply dom_PERMIT_BATCH_TRANSFER_FROM_TYPES|].
    reflexivity.
Qed.

Lemma dom_witness_transfer_types w :
  dom (witness_transfer_types w)
  = dom (witnessType w)
    ∪ ({[ "TokenPermissions"; "PermitWitnessTransferFrom" ]} : gset string).
Proof.
  unfold witness_transfer_types, spread.
  rewrite dom_insert_L, dom_union_L, dom_insert_L, dom_empty_L.
  apply set_eq. intros x.
  rewrite !elem_of_union, !elem_of_singleton, elem_of_empty. tauto.
Qed.

Lemma dom_witness_batch_transfer_types w :
  dom (witness_batch_transfer_types w)
  = dom (witnessType w)
    ∪ ({[ "TokenPermissions"; "PermitBatchWitnessTransferFrom" ]}
       : gset string).
Proof.
  unfold witness_batch_transfer_types, spread.
  rewrite !dom_insert_L, dom_union_L, dom_empty_L.
  apply set_eq. intros x.
  rewrite !elem_of_union, !elem_of_singleton, elem_of_empty. tauto.
Qed.

(** C4, as the code has it: with a witness the keys of the types are
    exactly those of the witness's own type mapping, [TokenPermissions]
    and the witness-extended primary struct, whose fields are the base
    fields followed by [witness] typed by [witnessTypeName]; the builder
    adds no base primary struct, so that name is a key only when the
    witness's own type mapping declares it. *)
Theorem witness_schema st permit p a c w :
  heap st !! permit = Some p ->
  in_range p ->
  exists d,
    getPermitData permit a c (Some w) st
      = (Normal d, merged permit p (Some w) st) /\
    match permitted p with
    | OneToken _ =>
        dom (types d)
          = dom (witnessType w)
            ∪ ({[ "TokenPermissions"; "PermitWitnessTransferFrom" ]}
               : gset string) /\
        (exists base,
           PERMIT_TRANSFER_FROM_TYPES !! "PermitTransferFrom" = Some base /\
           types d !! "PermitWitnessTransferFrom"
             = Some (base ++ [mkField "witness" (witnessTypeName w)])%list) /\
        ("PermitTransferFrom" ∈ dom (types d) <->
         "PermitTransferFrom" ∈ dom (witnessType w))
    | TokenArray _ =>
        dom (types d)
          = dom (witnessType w)
            ∪ ({[ "TokenPermissions"; "PermitBatchWitnessTransferFrom" ]}
               : gset string) /\
        (exists base,
           PERMIT_BATCH_TRANSFER_FROM_TYPES !! "PermitBatchTransferFrom"
             = Some base /\
           types d !! "PermitBatchWitnessTransferFrom"
             = Some (base ++ [mkField "witness" (witnessTypeName w)])%list) /\
        ("PermitBatchTransferFrom" ∈ dom (types d) <->
         "PermitBatchTransferFrom" ∈ dom (witnessType w))
    end.
Proof.
  intros Hp Hr.
  assert (Hdata := getPermitData_run st permit p a c (Some w) Hp).
  apply fault_of_in_range in Hr. rewrite Hr in Hdata.
  unfold types_of, isPermitTransferFrom in Hdata.
  eexists. split; [exact Hdata|].
  destruct (permitted p) as [t|l]; simpl.
  - split; [apply dom_witness_transfer_types|]. split.
    + eexists. split; [reflexivity|].
      unfold witness_transfer_types. apply lookup_insert_eq.
    + rewrite dom_witness_transfer_types.
      rewrite !elem_of_union, !elem_of_singleton.
      split; [intros [H|[H|H]]; [exact H|congruence..] | auto].
  - split; [apply dom_witness_batch_transfer_types|]. split.
    + eexists. split; [reflexivity|].
      unfold witness_batch_transfer_types. apply lookup_insert_eq.
    + rewrite dom_witness_batch_transfer_types.
      rewrite !elem_of_union, !elem_of_singleton.
      split; [intros [H|[H|H]]; [exact H|congruence..] | auto].
Qed.

End Schema.

(** ** Effects on the caller's permit, hashing, determinism *)

Section Effects.

Context `{C : Collaborators}.

Lemma set_witness_twice x p : set_witness x (set_witness x p) = set_witness x p.
Proof.
  unfold set_witness; simpl. rewrite insert_insert_eq. reflexivity.
Qed.

Lemma merged_object_twice p w :
  merged_object (merged_object p w) w = merged_object p w.
Proof. destruct w; simpl; [apply set_witness_twice | reflexivity]. Qed.

Lemma fault_of_merged_object p w : fault_of (merged_object p w) = fault_of p.
Proof. destruct w; reflexivity. Qed.

Lemma request_of_merged_object p a c w :
  request_of (merged_object p w) a c w = request_of p a c w.
Proof.
  unfold request_of. rewrite merged_object_twice.
  destruct w; reflexivity.
Qed.

(** C1, as the code has it: without a witness a call leaves the heap as
    it was.  With a witness, a call that fails also leaves it as it was,
    and a call that succeeds writes the property [witness] on the
    caller's permit object itself, by [Object.assign] with the permit as
    target, and returns that same object as [values]; the permit's four
    declared properties and every other object keep their contents. *)
Theorem witness_merge_writes_the_permit st permit p a c :
  heap st !! permit = Some p ->
  (snd (getPermitTransferData permit a c None st) = st /\
   snd (getPermitBatchTransferData permit a c None st) = st /\
   snd (getPermitData permit a c None st) = st /\
   heap (snd (hash permit a c None st)) = heap st) /\
  forall w,
    let p' := mkPermit (permitted p) (spender p) (nonce p) (deadline p)
                       (<["witness" := witness w]> (others p)) in
    let written (r : Outcome (PermitData TypedDataDomain) * State) :=
      match r with
      | (Normal d, st') =>
          values d = permit /\
          heap st' = <[permit := p']> (heap st) /\
          hashed st' = hashed st
      | (_, st') => st' = st
      end in
    written (getPermitTransferData permit a c (Some w) st) /\
    written (getPermitBatchTransferData permit a c (Some w) st) /\
    written (getPermitData permit a c (Some w) st) /\
    match hash permit a c (Some w) st with
    | (Normal _, st') => heap st' = <[permit := p']> (heap st)
    | (_, st') => st' = st
    end.
Proof.
  intros Hp. split.
  - rewrite (getPermitTransferData_run _ _ p),
            (getPermitBatchTransferData_run _ _ p),
            (getPermitData_run _ _ p), (hash_run _ _ p) by exact Hp.
    repeat split;
      repeat match goal with
             | |- context [if ?b then _ else _] => destruct b; simpl
             | |- context [match permitted p with _ => _ end] =>
                 destruct (permitted p); simpl
             | |- context [match fault_of p with _ => _ end] =>
                 destruct (fault_of p); simpl
             end; reflexivity.
  - intros w p' written. subst written p'.
    rewrite (getPermitTransferData_run _ _ p),
            (getPermitBatchTransferData_run _ _ p),
            (getPermitData_run _ _ p), (hash_run _ _ p) by exact Hp.
    unfold merged, set_witness.
    repeat split;
      repeat match goal with
             | |- context [if ?b then _ else _] => destruct b; simpl
             | |- context [match permitted p with _ => _ end] =>
                 destruct (permitted p); simpl
             | |- context [match fault_of p with _ => _ end] =>
                 destruct (fault_of p); simpl
             end; auto.
Qed.

(** C5: [getPermitData] never calls the hashing primitive.  For a permit
    that passes validation, [hash] returns [hashTypedData] of the domain
    and types [getPermitData] returns for the same arguments, the primary
    type chosen by (single?, witness present?) and, as message, the
    contents of the [values] object; this is the one call made to the
    primitive, and the result is the hexadecimal string the primitive
    gives.  When [getPermitData] throws, [hash] throws the same fault
    and calls nothing. *)
Theorem hash_refines_getPermitData st permit p a c w :
  heap st !! permit = Some p ->
  (forall d, is_hex_string (hashTypedData d) = true) ->
  hashed (snd (getPermitData permit a c w st)) = hashed st /\
  (in_range p ->
   exists d st' m,
     getPermitData permit a c w st = (Normal d, st') /\
     heap st' !! values d = Some m /\
     let req :=
       mkDefinition (domain d) (types d)
         (primaryTypeName (isPermitTransferFrom p) (present w)) m in
     hash permit a c w st
       = (Normal (hashTypedData req),
          mkState (heap st') (hashed st ++ [req])) /\
     is_hex_string (hashTypedData req) = true) /\
  (forall e st',
     getPermitData permit a c w st = (Throw e, st') ->
     hash permit a c w st = (Throw e, st') /\ hashed st' = hashed st).
Proof.
  intros Hp Hhex.
  rewrite (getPermitData_run _ _ p), (hash_run _ _ p) by exact Hp.
  split; [|split].
  - destruct (fault_of p); simpl; [reflexivity | apply hashed_merged].
  - intros Hr. apply fault_of_in_range in Hr. rewrite Hr.
    eexists _, _, (merged_object p w).
    split; [reflexivity|]. simpl.
    split; [apply heap_merged; exact Hp|].
    split; [reflexivity | apply Hhex].
  - intros e st'. destruct (fault_of p); intros H; inversion H; subst.
    split; reflexivity.
Qed.

(** C9: [hash] is deterministic.  Two calls whose permit objects have the
    same contents, with the same verifying contract, chain id and witness,
    return the same result, wherever the objects live and whatever else
    the heap holds; and calling [hash] again on the same permit object
    with the same arguments returns the same result as the first call. *)
Theorem hash_is_deterministic (st1 st2 : State) permit1 permit2 p a c w :
  heap st1 !! permit1 = Some p ->
  heap st2 !! permit2 = Some p ->
  fst (hash permit1 a c w st1) = fst (hash permit2 a c w st2) /\
  fst (hash permit1 a c w (snd (hash permit1 a c w st1)))
    = fst (hash permit1 a c w st1).
Proof.
  intros H1 H2. split.
  - rewrite (hash_run _ _ p) by exact H1.
    rewrite (hash_run _ _ p) by exact H2.
    destruct (fault_of p); reflexivity.
  - rewrite (hash_run st1 _ p) by exact H1.
    destruct (fault_of p) as [e|] eqn:Hf; simpl.
    + rewrite (hash_run _ _ p) by exact H1. rewrite Hf. reflexivity.
    + rewrite (hash_run _ _ (merged_object p w))
        by (simpl; apply heap_merged; exact H1).
      rewrite fault_of_merged_object, Hf, request_of_merged_object.
      reflexivity.
Qed.

End Effects.

(** ** The statements on concrete permits *)

Lemma state_of_lookup p : heap (state_of p) !! 1%positive = Some p.
Proof. apply lookup_insert_eq. Qed.

Lemma sample_permit_in_range : in_range sample_permit.
Proof.
  repeat split; try (apply Z.leb_le; vm_compute; reflexivity).
  intros t [<-|[]]. apply Z.leb_le. vm_compute. reflexivity.
Qed.

Lemma sample_batch_permit_in_range : in_range sample_batch_permit.
Proof.
  repeat split; try (apply Z.leb_le; vm_compute; reflexivity).
  intros t [<-|[]]. apply Z.leb_le. vm_compute. reflexivity.
Qed.

Lemma sample_state_single :
  heap sample_state !! 1%positive = Some sample_permit.
Proof. reflexivity. Qed.

Lemma sample_state_batch :
  heap sample_state !! 2%positive = Some sample_batch_permit.
Proof. reflexivity. Qed.

(** The end-to-end example: the single permit without a witness. *)
Example getPermitData_sample :
  getPermitData (C := sample) 1%positive "0xCCC" 1%Z None sample_state
  = (Normal (mkPermitData ("0xCCC", 1%Z) PERMIT_TRANSFER_FROM_TYPES
               1%positive),
     sample_state).
Proof. vm_compute. reflexivity. Qed.

Example hash_sample :
  hash (C := sample) 1%positive "0xCCC" 1%Z None sample_state
  = (Normal zero_hash,
     mkState (C := sample) (heap sample_state)
       [ mkDefinition (permit2Domain (Collaborators := sample) "0xCCC" 1%Z)
           PERMIT_TRANSFER_FROM_TYPES "PermitTransferFrom" sample_permit ]).
Proof. vm_compute. reflexivity. Qed.

(** A permit whose three bounds are all exceeded meets the deadline
    fault. *)
Example getPermitData_overdue :
  fst (getPermitData (C := sample) 1%positive "0xCCC" 1%Z None
         (state_of overdue_permit))
  = Throw "SIG_DEADLINE_OUT_OF_RANGE".
Proof. vm_compute. reflexivity. Qed.

(** The batch with two amounts above the maximum meets one amount
    fault. *)
Example getPermitData_greedy_batch :
  fst (getPermitData (C := sample) 1%positive "0xCCC" 1%Z None
         (state_of greedy_batch_permit))
  = Throw "AMOUNT_OUT_OF_RANGE".
Proof. vm_compute. reflexivity. Qed.

(** With a witness, [values] is the permit passed in, and the object now
    carries the payload. *)
Example getPermitData_sample_witness :
  let r := getPermitData (C := sample) 2%positive "0xCCC" 1%Z
             (Some sample_witness) sample_state in
  fst r = Normal (mkPermitData ("0xCCC", 1%Z)
                    (witness_batch_transfer_types sample_witness) 2%positive)
  /\ heap (snd r) !! 2%positive
     = Some (mkPermit (TokenArray [sample_token]) "0xBBB" 0 1700000000
               (<["witness" := BigInt 7]> ∅)).
Proof. vm_compute. split; reflexivity. Qed.

(** C1, as stated, fails: after a call with a witness the caller's permit
    object has changed, for the single and for the batch builder. *)
Lemma permit_object_is_written :
  heap (snd (getPermitTransferData (C := sample) 1%positive "0xCCC" 1%Z
               (Some sample_witness) sample_state)) !! 1%positive
    <> heap sample_state !! 1%positive /\
  heap (snd (getPermitBatchTransferData (C := sample) 2%positive "0xCCC" 1%Z
               (Some sample_witness) sample_state)) !! 2%positive
    <> heap sample_state !! 2%positive.
Proof.
  split.
  - rewrite (getPermitTransferData_run (C := sample) _ _ sample_permit)
      by exact sample_state_single.
    rewrite sample_state_single. simpl.
    rewrite lookup_insert_eq. intros H.
    assert (Hw : others (set_witness (BigInt 7) sample_permit) !! "witness"
                 = others sample_permit !! "witness") by congruence.
    unfold set_witness, sample_permit in Hw. cbn [others] in Hw.
    rewrite lookup_insert_eq, lookup_empty in Hw. discriminate Hw.
  - rewrite (getPermitBatchTransferData_run (C := sample) _ _
               sample_batch_permit) by exact sample_state_batch.
    rewrite sample_state_batch. simpl.
    rewrite lookup_insert_eq. intros H.
    assert (Hw : others (set_witness (BigInt 7) sample_batch_permit)
                   !! "witness"
                 = others sample_batch_permit !! "witness") by congruence.
    unfold set_witness, sample_batch_permit in Hw. cbn [others] in Hw.
    rewrite lookup_insert_eq, lookup_empty in Hw. discriminate Hw.
Qed.

(** C4, as stated, fails: with a witness whose own type mapping declares
    [PermitTransferFrom], that name is a key of the returned types. *)
Lemma base_struct_name_can_appear :
  exists d st',
    getPermitData (C := sample) 1%positive "0xCCC" 1%Z
      (Some shadowing_witness) sample_state = (Normal d, st') /\
    "PermitTransferFrom" ∈ dom (types d).
Proof.
  eexists _, _. split.
  - rewrite (getPermitData_run (C := sample) _ _ sample_permit)
      by exact sample_state_single.
    replace (fault_of sample_permit) with (@None string)
      by (symmetry; apply fault_of_in_range, sample_permit_in_range).
    reflexivity.
  - simpl. apply elem_of_dom. eexists.
    unfold types_of, transfer_types, witness_transfer_types, spread; simpl.
    rewrite lookup_insert_ne by congruence.
    apply lookup_union_Some_l. apply lookup_insert_eq.
Qed.

(** At the boundary: every field at its maximum passes, an amount one
    above it does not. *)
Lemma bounds_are_inclusive_at_boundary :
  heap (state_of max_permit) !! 1%positive = Some max_permit /\
  (exists d st',
     getPermitData (C := sample) 1%positive "0xCCC" 1%Z None
       (state_of max_permit) = (Normal d, st')) /\
  validateTokenPermissions (C := sample)
    (mkTokenPermissions "0xAAA" (MaxSignatureTransferAmount + 1))
    (state_of max_permit)
  = (Throw "AMOUNT_OUT_OF_RANGE", state_of max_permit).
Proof.
  destruct (bounds_are_inclusive (C := sample) (state_of max_permit)
              1%positive max_permit "0xCCC" 1%Z None
              (state_of_lookup max_permit))
    as (Hmax & _ & _ & _ & _ & Hcheck).
  split; [apply state_of_lookup|]. split.
  - apply Hmax. repeat split. intros t [<-|[]]. reflexivity.
  - apply Hcheck. simpl. lia.
Defined.

(** All three bounds exceeded: the deadline fault is the one met. *)
Lemma faults_have_precedence_when_all_exceed :
  heap (state_of overdue_permit) !! 1%positive = Some overdue_permit /\
  getPermitData (C := sample) 1%positive "0xCCC" 1%Z None
    (state_of overdue_permit)
  = (Throw "SIG_DEADLINE_OUT_OF_RANGE", state_of overdue_permit).
Proof.
  split; [apply state_of_lookup|].
  destruct (faults_have_precedence (C := sample) (state_of overdue_permit)
              1%positive overdue_permit "0xCCC" 1%Z None
              (state_of_lookup overdue_permit)) as [Hdeadline _].
  apply Hdeadline. simpl. lia.
Defined.

(** The batch stops at its second element; the third, also in violation,
    adds nothing. *)
Lemma batch_amounts_short_circuit_at_second :
  heap (state_of greedy_batch_permit) !! 1%positive
    = Some greedy_batch_permit /\
  getPermitBatchTransferData (C := sample) 1%positive "0xCCC" 1%Z None
    (state_of greedy_batch_permit)
  = (Throw "AMOUNT_OUT_OF_RANGE", state_of greedy_batch_permit).
Proof.
  split; [apply state_of_lookup|].
  assert (Hd : (deadline greedy_batch_permit <= MaxSigDeadline)%Z)
    by (apply Z.leb_le; vm_compute; reflexivity).
  assert (Hn : (nonce greedy_batch_permit <= MaxUnorderedNonce)%Z)
    by (apply Z.leb_le; vm_compute; reflexivity).
  destruct (batch_amounts_short_circuit (C := sample)
              (state_of greedy_batch_permit) 1%positive greedy_batch_permit
              "0xCCC" 1%Z None _
              (state_of_lookup greedy_batch_permit) eq_refl Hd Hn)
    as (_ & Hstop & _).
  apply (Hstop [sample_token]
           (mkTokenPermissions "0xAAA" (MaxSignatureTransferAmount + 1))
           [mkTokenPermissions "0xDDD" (MaxSignatureTransferAmount + 2)]).
  - reflexivity.
  - intros t [<-|[]]. apply Z.leb_le. vm_compute. reflexivity.
  - simpl. lia.
Defined.

(** A batch of one element goes to the batch builder. *)
Lemma dispatch_is_structural_for_one_element :
  heap sample_state !! 2%positive = Some sample_batch_permit /\
  getPermitData (C := sample) 2%positive "0xCCC" 1%Z None sample_state
  = getPermitBatchTransferData (C := sample) 2%positive "0xCCC" 1%Z None
      sample_state.
Proof.
  split; [exact sample_state_batch|].
  destruct (dispatch_is_structural (C := sample) sample_state 2%positive
              sample_batch_permit "0xCCC" 1%Z None sample_state_batch)
    as (_ & Hbatch & _).
  exact Hbatch.
Defined.

(** A single permit with a witness is hashed as
    [PermitWitnessTransferFrom]. *)
Lemma primary_type_of_sample_with_witness :
  heap sample_state !! 1%positive = Some sample_permit /\
  in_range sample_permit /\
  exists req,
    hashed (snd (hash (C := sample) 1%positive "0xCCC" 1%Z
                   (Some sample_witness) sample_state)) = [req] /\
    primaryType req = "PermitWitnessTransferFrom".
Proof.
  split; [exact sample_state_single|].
  split; [exact sample_permit_in_range|].
  destruct (primary_type_is_a_table (C := sample) sample_state 1%positive
              sample_permit "0xCCC" 1%Z (Some sample_witness)
              sample_state_single sample_permit_in_range)
    as [[req (Hhash & Hname & _)] _].
  exists req. rewrite Hhash. split; [reflexivity | exact Hname].
Defined.

(** The single permit without a witness: two type declarations. *)
Lemma no_witness_base_schema_of_sample :
  heap sample_state !! 1%positive = Some sample_permit /\
  in_range sample_permit /\
  exists d,
    getPermitData (C := sample) 1%positive "0xCCC" 1%Z None sample_state
      = (Normal d, sample_state) /\
    dom (types d)
      = ({[ "TokenPermissions"; "PermitTransferFrom" ]} : gset string).
Proof.
  split; [exact sample_state_single|].
  split; [exact sample_permit_in_range|].
  destruct (no_witness_base_schema (C := sample) sample_state 1%positive
              sample_permit "0xCCC" 1%Z
              sample_state_single sample_permit_in_range)
    as [d (Hdata & _ & _ & _ & _ & _ & Hdom & _)].
  exists d. split; [exact Hdata | exact Hdom].
Defined.

(** The batch permit with a witness: the keys of its types. *)
Lemma witness_schema_of_sample :
  heap sample_state !! 2%positive = Some sample_batch_permit /\
  in_range sample_batch_permit /\
  exists d,
    fst (getPermitData (C := sample) 2%positive "0xCCC" 1%Z
           (Some sample_witness) sample_state) = Normal d /\
    dom (types d)
      = dom (witnessType sample_witness)
        ∪ ({[ "TokenPermissions"; "PermitBatchWitnessTransferFrom" ]}
           : gset string).
Proof.
  split; [exact sample_state_batch|].
  split; [exact sample_batch_permit_in_range|].
  destruct (witness_schema (C := sample) sample_state 2%positive
              sample_batch_permit "0xCCC" 1%Z sample_witness
              sample_state_batch sample_batch_permit_in_range)
    as [d (Hdata & Hdom & _)].
  exists d. rewrite Hdata. split; [reflexivity | exact Hdom].
Defined.

(** Without a witness the state is left as it was. *)
Lemma witness_merge_on_sample :
  heap sample_state !! 1%positive = Some sample_permit /\
  snd (getPermitData (C := sample) 1%positive "0xCCC" 1%Z None sample_state)
  = sample_state.
Proof.
  split; [exact sample_state_single|].
  destruct (witness_merge_writes_the_permit (C := sample) sample_state
              1%positive sample_permit "0xCCC" 1%Z sample_state_single)
    as [(_ & _ & Hsame & _) _].
  exact Hsame.
Defined.

(** [getPermitData] makes no call to the hashing primitive. *)
Lemma hash_refines_getPermitData_on_sample :
  heap sample_state !! 1%positive = Some sample_permit /\
  (forall d, is_hex_string (hashTypedData (Collaborators := sample) d)
             = true) /\
  hashed (snd (getPermitData (C := sample) 1%positive "0xCCC" 1%Z
                 (Some sample_witness) sample_state)) = [].
Proof.
  split; [exact sample_state_single|].
  split; [intros d; reflexivity|].
  destruct (hash_refines_getPermitData (C := sample) sample_state 1%positive
              sample_permit "0xCCC" 1%Z (Some sample_witness)
              sample_state_single (fun d => eq_refl))
    as [Hsilent _].
  exact Hsilent.
Defined.

(** The same permit contents in two different heaps hash alike. *)
Lemma hash_is_deterministic_across_heaps :
  heap sample_state !! 1%positive = Some sample_permit /\
  heap (state_of sample_permit) !! 1%positive = Some sample_permit /\
  fst (hash (C := sample) 1%positive "0xCCC" 1%Z (Some sample_witness)
         sample_state)
  = fst (hash (C := sample) 1%positive "0xCCC" 1%Z (Some sample_witness)
           (state_of sample_permit)).
Proof.
  split; [exact sample_state_single|].
  split; [apply state_of_lookup|].
  destruct (hash_is_deterministic (C := sample) sample_state
              (state_of sample_permit) 1%positive 1%positive sample_permit
              "0xCCC" 1%Z (Some sample_witness)
              sample_state_single (state_of_lookup sample_permit))
    as [Hsame _].
  exact Hsame.
Defined.

(** ** Further properties of the builders *)

Section Further.

Context `{C : Collaborators}.

Lemma getPermitData_in_range st permit p a c w :
  heap st !! permit = Some p ->
  in_range p ->
  getPermitData permit a c w st
  = (Normal (mkPermitData (permit2Domain a c) (types_of p w) permit),
     merged permit p w st).
Proof.
  intros Hp Hr. rewrite (getPermitData_run _ _ p) by exact Hp.
  apply fault_of_in_range in Hr. rewrite Hr. reflexivity.
Qed.

Lemma hash_in_range st permit p a c w :
  heap st !! permit = Some p ->
  in_range p ->
  hash permit a c w st
  = (Normal (hashTypedData (request_of p a c w)),
     mkState (heap (merged permit p w st))
             (hashed st ++ [request_of p a c w])).
Proof.
  intros Hp Hr. rewrite (hash_run _ _ p) by exact Hp.
  apply fault_of_in_range in Hr. rewrite Hr. reflexivity.
Qed.

Lemma in_range_set_witness x p : in_range (set_witness x p) <-> in_range p.
Proof. reflexivity. Qed.

(** X1: which declaration of [TokenPermissions] the types carry when a
    witness is supplied.  In the single builder the witness's own type
    mapping is spread after the built-in entry, so a [TokenPermissions]
    it declares replaces the built-in one; in the batch builder the
    built-in entry is written after the spread and always stands. *)
Theorem token_permissions_declaration st permit p a c w :
  heap st !! permit = Some p ->
  in_range p ->
  exists d,
    getPermitData permit a c (Some w) st
      = (Normal d, merged permit p (Some w) st) /\
    match permitted p with
    | OneToken _ =>
        types d !! "TokenPermissions"
        = Some (default TOKEN_PERMISSIONS
                  (witnessType w !! "TokenPermissions"))
    | TokenArray _ =>
        types d !! "TokenPermissions" = Some TOKEN_PERMISSIONS
    end.
Proof.
  intros Hp Hr. eexists. split; [apply getPermitData_in_range; assumption|].
  unfold types_of, isPermitTransferFrom. simpl.
  destruct (permitted p) as [t|l]; simpl.
  - unfold witness_transfer_types, spread.
    rewrite lookup_insert_ne by congruence.
    rewrite lookup_union, lookup_insert_eq.
    destruct (witnessType w !! "TokenPermissions"); reflexivity.
  - unfold witness_batch_transfer_types, spread.
    rewrite lookup_insert_ne by congruence.
    apply lookup_insert_eq.
Qed.

(** X2: the declarations of the witness's own type mapping are carried
    into the types as they are, and nothing else is added: under every
    name other than [TokenPermissions] and the witness-extended primary
    struct, the types hold exactly what the witness's mapping holds. *)
Theorem witness_declarations_are_carried_over st permit p a c w :
  heap st !! permit = Some p ->
  in_range p ->
  exists d,
    getPermitData permit a c (Some w) st
      = (Normal d, merged permit p (Some w) st) /\
    forall k : string,
      k <> "TokenPermissions" ->
      k <> primaryTypeName (isPermitTransferFrom p) true ->
      types d !! k = witnessType w !! k.
Proof.
  intros Hp Hr. eexists. split; [apply getPermitData_in_range; assumption|].
  intros k Htp Hprim. unfold types_of, isPermitTransferFrom in *. simpl.
  destruct (permitted p) as [t|l]; simpl in *.
  - unfold witness_transfer_types, spread.
    rewrite lookup_insert_ne by congruence.
    rewrite lookup_union, lookup_insert_ne, lookup_empty by congruence.
    destruct (witnessType w !! k); reflexivity.
  - unfold witness_batch_transfer_types, spread.
    rewrite !lookup_insert_ne by congruence.
    rewrite lookup_union, lookup_empty.
    destruct (witnessType w !! k); reflexivity.
Qed.


(** X4: a batch permit with an empty [permitted] array meets no amount
    check at all: with deadline and nonce in range it is accepted, gets
    the batch types, and is hashed under the batch primary type with the
    empty array in the message. *)
Theorem empty_batch_is_accepted st permit p a c w :
  heap st !! permit = Some p ->
  permitted p = TokenArray [] ->
  (deadline p <= MaxSigDeadline)%Z ->
  (nonce p <= MaxUnorderedNonce)%Z ->
  getPermitData permit a c w st
    = (Normal (mkPermitData (permit2Domain a c) (batch_transfer_types w)
                 permit),
       merged permit p w st) /\
  exists req,
    hash permit a c w st
      = (Normal (hashTypedData req),
         mkState (heap (merged permit p w st)) (hashed st ++ [req])) /\
    permitted (message req) = TokenArray [] /\
    primaryType req = primaryTypeName false (present w).
Proof.
  intros Hp Hperm Hd Hn.
  assert (Hr : in_range p).
  { repeat split; try assumption. rewrite Hperm. intros t []. }
  split.
  - rewrite (getPermitData_in_range _ _ p) by assumption.
    unfold types_of, isPermitTransferFrom. rewrite Hperm. reflexivity.
  - exists (request_of p a c w).
    split; [apply hash_in_range; assumption|].
    unfold request_of, isPermitTransferFrom. simpl. rewrite Hperm. simpl.
    split; [|reflexivity].
    destruct w; simpl; exact Hperm.
Qed.

Lemma set_witness_replaces x y p :
  set_witness y (set_witness x p) = set_witness y p.
Proof.
  unfold set_witness; simpl. rewrite insert_insert_eq. reflexivity.
Qed.

Lemma types_of_set_witness x p w : types_of (set_witness x p) w = types_of p w.
Proof. reflexivity. Qed.

Lemma merged_after_merged st permit p w1 w2 :
  merged permit (set_witness (witness w1) p) (Some w2)
    (merged permit p (Some w1) st)
  = merged permit p (Some w2) st.
Proof.
  simpl. rewrite insert_insert_eq, set_witness_replaces. reflexivity.
Qed.

(** X5: on one permit object the last witness wins.  A call with a
    witness after an earlier call with another witness returns the same
    data and leaves the same state as that call alone would have: the
    [witness] property written by the earlier call is replaced, not
    accumulated (and repeating a call changes nothing further). *)
Theorem later_witness_replaces_earlier st permit p a c w1 w2 :
  heap st !! permit = Some p ->
  in_range p ->
  getPermitData permit a c (Some w2)
    (snd (getPermitData permit a c (Some w1) st))
  = getPermitData permit a c (Some w2) st /\
  exists p2,
    heap (snd (getPermitData permit a c (Some w2)
                 (snd (getPermitData permit a c (Some w1) st))))
      !! permit = Some p2 /\
    others p2 !! "witness" = Some (witness w2).
Proof.
  intros Hp Hr.
  rewrite (getPermitData_in_range st _ p) by assumption. cbn [snd].
  rewrite (getPermitData_in_range _ _ (set_witness (witness w1) p))
    by (try apply (heap_merged _ _ p (Some w1)); assumption).
  rewrite (getPermitData_in_range st _ p) by assumption.
  rewrite merged_after_merged, types_of_set_witness.
  split; [reflexivity|].
  exists (set_witness (witness w2) p). split.
  - apply (heap_merged _ _ p (Some w2)). exact Hp.
  - apply lookup_insert_eq.
Qed.

(** X6: the [witness] property outlives the call that wrote it.  When
    [hash] is called without a witness on a permit object that an earlier
    call with a witness has been given, the types and the primary type
    are the plain ones, yet the message passed to the hashing primitive
    still carries the earlier witness payload. *)
Theorem earlier_witness_stays_in_the_message st permit p a c w :
  heap st !! permit = Some p ->
  in_range p ->
  let st1 := snd (hash permit a c (Some w) st) in
  exists req,
    hash permit a c None st1
      = (Normal (hashTypedData req),
         mkState (heap st1) (hashed st1 ++ [req])) /\
    td_types req = types_of p None /\
    primaryType req = primaryTypeName (isPermitTransferFrom p) false /\
    message req = set_witness (witness w) p /\
    others (message req) !! "witness" = Some (witness w).
Proof.
  intros Hp Hr st1. subst st1.
  rewrite (hash_in_range st _ p) by assumption. cbn [snd].
  exists (request_of (set_witness (witness w) p) a c None).
  split; [|split; [|split; [|split]]].
  - rewrite (hash_in_range _ _ (set_witness (witness w) p)).
    + reflexivity.
    + simpl. apply lookup_insert_eq.
    + exact Hr.
  - reflexivity.
  - reflexivity.
  - reflexivity.
  - apply lookup_insert_eq.
Qed.

Lemma forallb_Permutation {A} (f : A -> bool) l l' :
  Permutation l l' -> forallb f l = forallb f l'.
Proof.
  induction 1 as [|x l l' _ IH|x y l|l l' l'' _ IH1 _ IH2]; simpl.
  - reflexivity.
  - rewrite IH. reflexivity.
  - destruct (f x), (f y); reflexivity.
  - rewrite IH1. exact IH2.
Qed.

Lemma forallb_amount_ok l :
  forallb amount_ok l
  = forallb (fun z => (MaxSignatureTransferAmount >=? z)%Z) (map amount l).
Proof.
  induction l as [|x l IH]; simpl; [reflexivity|].
  rewrite IH. reflexivity.
Qed.

(** X7: the fault a permit meets is decided by its deadline, its nonce
    and the amounts it carries, in any order.  Two permits that agree on
    the deadline and the nonce and whose amounts are a rearrangement of
    each other are both accepted or both rejected with the same fault,
    whatever their tokens, spender, other properties, shape (single or
    batch), verifying contract, chain id and witness are. *)
Theorem fault_depends_on_the_bounds_only
    (st st' : State) l l' p p' a c w a' c' w' :
  heap st !! l = Some p ->
  heap st' !! l' = Some p' ->
  deadline p = deadline p' ->
  nonce p = nonce p' ->
  Permutation (map amount (tokens (permitted p)))
              (map amount (tokens (permitted p'))) ->
  (forall e,
     getPermitData l a c w st = (Throw e, st)
     <-> getPermitData l' a' c' w' st' = (Throw e, st')) /\
  ((exists d s, getPermitData l a c w st = (Normal d, s))
   <-> (exists d s, getPermitData l' a' c' w' st' = (Normal d, s))).
Proof.
  intros Hp Hp' Hd Hn Hperm.
  assert (Hf : fault_of p = fault_of p').
  { unfold fault_of. rewrite Hd, Hn, !forallb_amount_ok.
    rewrite (forallb_Permutation _ _ _ Hperm). reflexivity. }
  rewrite (getPermitData_run st _ p), (getPermitData_run st' _ p')
    by assumption.
  rewrite <- Hf. destruct (fault_of p) as [e0|]; split.
  - intros e. split; intros H; inversion H; reflexivity.
  - split; intros (d & s & H); discriminate H.
  - intros e. split; intros H; discriminate H.
  - split; intros _; eauto.
Qed.


Lemma request_of_after_witness x p a c w :
  request_of (set_witness x p) a c (Some w) = request_of p a c (Some w).
Proof.
  unfold request_of. simpl. rewrite set_witness_replaces. reflexivity.
Qed.

(** X9: what [hash] returns is not disturbed by an earlier call of
    [getPermitData] on the same permit object, provided the earlier call
    had no witness or the call of [hash] has one: the earlier call either
    wrote nothing or wrote a [witness] property that [hash] overwrites
    before it builds the message. *)
Theorem hash_after_getPermitData st permit p a c a1 c1 w1 w2 :
  heap st !! permit = Some p ->
  w1 = None \/ w2 <> None ->
  fst (hash permit a c w2 (snd (getPermitData permit a1 c1 w1 st)))
  = fst (hash permit a c w2 st).
Proof.
  intros Hp Hw.
  rewrite (getPermitData_run st _ p) by exact Hp.
  destruct (fault_of p) as [e|] eqn:Hf; [reflexivity|].
  cbn [snd].
  destruct w1 as [x|]; [|reflexivity].
  destruct w2 as [y|]; [|destruct Hw as [Hw|Hw]; congruence].
  rewrite (hash_run _ _ (set_witness (witness x) p))
    by (apply (heap_merged _ _ p (Some x)); exact Hp).
  rewrite (hash_run st _ p) by exact Hp.
  change (fault_of (set_witness (witness x) p)) with (fault_of p).
  rewrite Hf, request_of_after_witness. reflexivity.
Qed.

End Further.

(** ** The further properties on concrete permits *)


(** A witness that declares [TokenPermissions] has its declaration in
    the types of a single permit. *)
Lemma token_permissions_declaration_overridden :
  heap sample_state !! 1%positive = Some sample_permit /\
  in_range sample_permit /\
  exists d,
    fst (getPermitData (C := sample) 1%positive "0xCCC" 1%Z
           (Some overriding_witness) sample_state) = Normal d /\
    types d !! "TokenPermissions"
    = Some (default TOKEN_PERMISSIONS
              (witnessType overriding_witness !! "TokenPermissions")).
Proof.
  split; [exact sample_state_single|].
  split; [exact sample_permit_in_range|].
  destruct (token_permissions_declaration (C := sample) sample_state
              1%positive sample_permit "0xCCC" 1%Z overriding_witness
              sample_state_single sample_permit_in_range)
    as [d [Hdata Htp]].
  exists d. rewrite Hdata. split; [reflexivity | exact Htp].
Defined.

(** The declaration [Order] of the sample witness is in the types as the
    witness gives it. *)
Lemma witness_declarations_of_sample :
  heap sample_state !! 1%positive = Some sample_permit /\
  in_range sample_permit /\
  exists d,
    fst (getPermitData (C := sample) 1%positive "0xCCC" 1%Z
           (Some sample_witness) sample_state) = Normal d /\
    types d !! "Order" = witnessType sample_witness !! "Order".
Proof.
  split; [exact sample_state_single|].
  split; [exact sample_permit_in_range|].
  destruct (witness_declarations_are_carried_over (C := sample) sample_state
              1%positive sample_permit "0xCCC" 1%Z sample_witness
              sample_state_single sample_permit_in_range)
    as [d [Hdata Hkeys]].
  exists d. rewrite Hdata. split; [reflexivity|].
  apply Hkeys; intros H; discriminate H.
Defined.


(** The empty batch is accepted. *)
Lemma empty_batch_permit_is_accepted :
  heap (state_of empty_batch_permit) !! 1%positive
    = Some empty_batch_permit /\
  getPermitData (C := sample) 1%positive "0xCCC" 1%Z None
    (state_of empty_batch_permit)
  = (Normal (mkPermitData (permit2Domain (Collaborators := sample)
                             "0xCCC" 1%Z)
               PERMIT_BATCH_TRANSFER_FROM_TYPES 1%positive),
     state_of empty_batch_permit).
Proof.
  split; [apply state_of_lookup|].
  assert (Hd : (deadline empty_batch_permit <= MaxSigDeadline)%Z)
    by (apply Z.leb_le; vm_compute; reflexivity).
  assert (Hn : (nonce empty_batch_permit <= MaxUnorderedNonce)%Z)
    by (apply Z.leb_le; vm_compute; reflexivity).
  destruct (empty_batch_is_accepted (C := sample)
              (state_of empty_batch_permit) 1%positive empty_batch_permit
              "0xCCC" 1%Z None
              (state_of_lookup empty_batch_permit) eq_refl Hd Hn)
    as [Hdata _].
  exact Hdata.
Defined.

(** Two witnesses in a row on the sample permit: the second stands. *)
Lemma later_witness_on_sample :
  heap sample_state !! 1%positive = Some sample_permit /\
  in_range sample_permit /\
  getPermitData (C := sample) 1%positive "0xCCC" 1%Z
    (Some shadowing_witness)
    (snd (getPermitData (C := sample) 1%positive "0xCCC" 1%Z
            (Some sample_witness) sample_state))
  = getPermitData (C := sample) 1%positive "0xCCC" 1%Z
      (Some shadowing_witness) sample_state.
Proof.
  split; [exact sample_state_single|].
  split; [exact sample_permit_in_range|].
  destruct (later_witness_replaces_earlier (C := sample) sample_state
              1%positive sample_permit "0xCCC" 1%Z
              sample_witness shadowing_witness
              sample_state_single sample_permit_in_range)
    as [Hsame _].
  exact Hsame.
Defined.

(** After a call with the sample witness, a call without one passes a
    message that carries the payload. *)
Lemma earlier_witness_of_sample_stays :
  heap sample_state !! 1%positive = Some sample_permit /\
  in_range sample_permit /\
  exists req,
    fst (hash (C := sample) 1%positive "0xCCC" 1%Z None
           (snd (hash (C := sample) 1%positive "0xCCC" 1%Z
                   (Some sample_witness) sample_state)))
    = Normal (hashTypedData (Collaborators := sample) req) /\
    others (message req) !! "witness" = Some (BigInt 7).
Proof.
  split; [exact sample_state_single|].
  split; [exact sample_permit_in_range|].
  destruct (earlier_witness_stays_in_the_message (C := sample) sample_state
              1%positive sample_permit "0xCCC" 1%Z sample_witness
              sample_state_single sample_permit_in_range)
    as [req (Hhash & _ & _ & _ & Hmsg)].
  exists req. rewrite Hhash. split; [reflexivity | exact Hmsg].
Defined.

(** The single sample permit and the one-element batch carry the same
    amount and meet the same faults. *)
Lemma single_and_batch_meet_the_same_faults :
  heap sample_state !! 1%positive = Some sample_permit /\
  heap sample_state !! 2%positive = Some sample_batch_permit /\
  forall e,
    getPermitData (C := sample) 1%positive "0xCCC" 1%Z None sample_state
      = (Throw e, sample_state)
    <-> getPermitData (C := sample) 2%positive "0xDDD" 5%Z
          (Some sample_witness) sample_state
        = (Throw e, sample_state).
Proof.
  split; [exact sample_state_single|].
  split; [exact sample_state_batch|].
  destruct (fault_depends_on_the_bounds_only (C := sample)
              sample_state sample_state 1%positive 2%positive
              sample_permit sample_batch_permit
              "0xCCC" 1%Z None "0xDDD" 5%Z (Some sample_witness)
              sample_state_single sample_state_batch eq_refl eq_refl
              (Permutation_refl _))
    as [Hfaults _].
  exact Hfaults.
Defined.


(** Asking for the data first does not change the hash of the sample
    permit with its witness. *)
Lemma hash_of_sample_after_getPermitData :
  heap sample_state !! 1%positive = Some sample_permit /\
  (Some shadowing_witness = None \/ Some sample_witness <> None) /\
  fst (hash (C := sample) 1%positive "0xCCC" 1%Z (Some sample_witness)
         (snd (getPermitData (C := sample) 1%positive "0xCCC" 1%Z
                 (Some shadowing_witness) sample_state)))
  = fst (hash (C := sample) 1%positive "0xCCC" 1%Z (Some sample_witness)
           sample_state).
Proof.
  split; [exact sample_state_single|].
  assert (Hw : Some shadowing_witness = None \/ Some sample_witness <> None)
    by (right; intros H; discriminate H).
  split; [exact Hw|].
  exact (hash_after_getPermitData (C := sample) sample_state 1%positive
           sample_permit "0xCCC" 1%Z "0xCCC" 1%Z
           (Some shadowing_witness) (Some sample_witness)
           sample_state_single Hw).
Defined.
